(** * Valuedi Web: the query client singleton and the root composition

    A shallow embedding of the two executable source files

    - [src/lib/queryClient.ts]: the module-level [queryClient] singleton,
    - [src/App.tsx]: the root component [App],

    over a small model of the JavaScript run time they rely on: a heap of
    objects with identity, the ES module registry (every module body is
    evaluated at most once) and completions that are either normal or
    abrupt (a thrown error). *)

From Stdlib Require Import ZArith.
From stdpp Require Import base option list gmap strings.

Set Warnings "-register-all".

(** ** JavaScript values, objects and the store *)

Module Js.

(** Heap locations: an object is its location, [===] on objects compares
    locations. *)
Definition loc := nat.

(** Function values that the two source files name.  A function declared
    at module level has one identity for the life of the program. *)
Inductive Component :=
| CQueryClientProvider   (* imported from the query library *)
| CHomePage              (* imported from ./pages *)
| CApp.                  (* declared in App.tsx *)

(** Numbers are the integers the source writes; every product of the
    source is far below 2^53, where IEEE doubles are exact. *)
Inductive Value :=
| VUndefined
| VBool (b : bool)
| VNum (n : Z)
| VFun (c : Component)
| VRef (l : loc).

Inductive Class := Object | QueryClient | QueryCache | MutationCache.

(** An object: the class it was constructed by and its own properties. *)
Record Obj := mkObj { class : Class; props : gmap string Value }.

(** The store: the heap, indexed by location, and the module registry,
    that maps the file of every evaluated module to its exports. *)
Record State := mkState {
  heap : list Obj;
  modules : gmap string (gmap string Value)
}.

Inductive Error := ReferenceError | TypeError.

Inductive Completion (A : Type) :=
| Normal (a : A)
| Throw (e : Error).
Arguments Normal {A} a.
Arguments Throw {A} e.

(** Computations: a completion and the store left behind (the effects of
    a computation that throws are kept). *)
Definition M (A : Type) : Type := State → Completion A * State.

Definition ret {A} (a : A) : M A := λ s, (Normal a, s).

Definition bind {A B} (m : M A) (k : A → M B) : M B :=
  λ s, match m s with
       | (Normal a, s') => k a s'
       | (Throw e, s') => (Throw e, s')
       end.

Definition throw {A} (e : Error) : M A := λ s, (Throw e, s).

Definition get_state : M State := λ s, (Normal s, s).

#[global] Instance M_ret : MRet M := @ret.
#[global] Instance M_bind : MBind M := λ A B k m, bind m k.

(** [new]: the object is stored at the first unused location. *)
Definition alloc (o : Obj) : M Value :=
  λ s, (Normal (VRef (length (heap s))),
        mkState (heap s ++ [o]) (modules s)).

(** An object literal [{ k1: v1, ... }]. *)
Definition object_literal (ps : gmap string Value) : M Value :=
  alloc (mkObj Object ps).

(** Property read [v.k]: [undefined] for a missing property, a TypeError
    on [undefined] itself. *)
Definition get_prop (v : Value) (k : string) : M Value :=
  λ s, match v with
       | VRef l =>
           match heap s !! l with
           | Some o => (Normal (default VUndefined (props o !! k)), s)
           | None => (Throw TypeError, s)
           end
       | VUndefined => (Throw TypeError, s)
       | VBool _ | VNum _ | VFun _ => (Normal VUndefined, s)
       end.

(** Property write [v.k = x], in strict mode (module code is strict): a
    TypeError on a value that is not an object. *)
Definition set_prop (v : Value) (k : string) (x : Value) : M unit :=
  λ s, match v with
       | VRef l =>
           match heap s !! l with
           | Some o =>
               (Normal (),
                mkState (<[l := mkObj (class o) (<[k := x]> (props o))]> (heap s))
                        (modules s))
           | None => (Throw TypeError, s)
           end
       | _ => (Throw TypeError, s)
       end.

(** Truthiness, as [||] tests it. *)
Definition truthy (v : Value) : bool :=
  match v with
  | VUndefined => false
  | VBool b => b
  | VNum n => negb (n =? 0)%Z
  | VFun _ | VRef _ => true
  end.

(** [a || b], where [b] is evaluated only when [a] is falsy. *)
Definition or_else (a : Value) (b : M Value) : M Value :=
  if truthy a then ret a else b.

(** [import ... from file]: the body of a module runs the first time the
    module is imported; afterwards the registry answers.  A body that
    throws registers nothing. *)
Definition import_from (file : string) (body : M (gmap string Value))
  : M (gmap string Value) :=
  λ s, match modules s !! file with
       | Some ns => (Normal ns, s)
       | None =>
           match body s with
           | (Normal ns, s') =>
               (Normal ns, mkState (heap s') (<[file := ns]> (modules s')))
           | (Throw e, s') => (Throw e, s')
           end
       end.

(** The live binding [name] of an evaluated module; a binding that is
    not initialised yet cannot be read. *)
Definition binding (file name : string) : M Value :=
  λ s, match modules s !! file with
       | Some ns =>
           match ns !! name with
           | Some v => (Normal v, s)
           | None => (Throw ReferenceError, s)
           end
       | None => (Throw ReferenceError, s)
       end.

(** React elements: the component, its props and its children. *)
Inductive Element :=
| jsx (type : Component) (eprops : gmap string Value) (children : list Element).

End Js.
Import Js.

#[global] Instance Component_eq_dec : EqDecision Component.
Proof. solve_decision. Defined.
#[global] Instance Class_eq_dec : EqDecision Class.
Proof. solve_decision. Defined.
#[global] Instance Value_eq_dec : EqDecision Value.
Proof. solve_decision. Defined.
#[global] Instance Error_eq_dec : EqDecision Error.
Proof. solve_decision. Defined.
#[global] Instance Obj_eq_dec : EqDecision Obj.
Proof. solve_decision. Defined.
#[global] Instance State_eq_dec : EqDecision State.
Proof. solve_decision. Defined.
#[global] Instance Completion_eq_dec `{EqDecision A} :
  EqDecision (Completion A).
Proof. solve_decision. Defined.
#[global] Instance Element_eq_dec : EqDecision Element.
Proof.
  refine (fix go (x y : Element) {struct x} : Decision (x = y) :=
            match x, y with
            | jsx t1 p1 c1, jsx t2 p2 c2 =>
                cast_if_and3 (decide (t1 = t2)) (decide (p1 = p2))
                  (@list_eq_dec _ go c1 c2)
            end); congruence.
Defined.

(** ** The query library

    [QueryClient] and [QueryClientProvider] are imported from the query
    library, which is not part of this repository. *)

Module ReactQuery.

(** [new QueryClient(config)], with the library's [config = {}] default
    for a missing argument.  The client keeps the caches and the default
    options the configuration names ([config.queryCache || new QueryCache()],
    [config.mutationCache || new MutationCache()],
    [config.defaultOptions || {}]) and starts unmounted. *)
Definition new_QueryClient (config : Value) : M Value :=
  config ← (if decide (config = VUndefined)
             then object_literal ∅ else mret config);
  qc ← get_prop config "queryCache";
  queryCache ← or_else qc (alloc (mkObj QueryCache ∅));
  mc ← get_prop config "mutationCache";
  mutationCache ← or_else mc (alloc (mkObj MutationCache ∅));
  d ← get_prop config "defaultOptions";
  defaultOptions ← or_else d (object_literal ∅);
  alloc (mkObj QueryClient
           (<["queryCache" := queryCache]>
            (<["mutationCache" := mutationCache]>
             (<["defaultOptions" := defaultOptions]>
              {["mountCount" := VNum 0]})))).

(** [client.getDefaultOptions()]: the default options the client holds. *)
Definition getDefaultOptions (client : Value) : M Value :=
  get_prop client "defaultOptions".

End ReactQuery.

(** ** src/lib/queryClient.ts *)

Module QueryClientTs.

Definition file : string := "src/lib/queryClient.ts".

(** The initialiser
    [new QueryClient({ defaultOptions: { queries: { ... } } })].  Each
    object literal is a new object; an inner literal is allocated before
    the literal that holds it. *)
Definition construct : M Value :=
  queries ← object_literal
               (<["refetchOnWindowFocus" := VBool false]>
                (<["retry" := VNum 1]>
                 {["staleTime" := VNum (5 * 60 * 1000)]}));
  defaultOptions ← object_literal {["queries" := queries]};
  config ← object_literal {["defaultOptions" := defaultOptions]};
  ReactQuery.new_QueryClient config.

(** The module body: [export const queryClient = ...]. *)
Definition body : M (gmap string Value) :=
  queryClient ← construct;
  mret {["queryClient" := queryClient]}.

End QueryClientTs.

(** ** src/pages/index.ts *)

Module PagesIndexTs.

Definition file : string := "src/pages/index.ts".

(** Modelled from the spec: the page modules [pages/index.ts] and
    [pages/HomePage.tsx] are not in src/.  The module exports the initial
    page component and its evaluation constructs nothing. *)
Definition body : M (gmap string Value) :=
  mret {["HomePage" := VFun CHomePage]}.

End PagesIndexTs.

(** ** src/App.tsx *)

Module AppTsx.

Definition file : string := "src/App.tsx".

(** [function App()]: no formal parameter, so whatever arguments a caller
    passes are dropped.  The body reads the imported binding [queryClient]
    and builds
    [<QueryClientProvider client={queryClient}><HomePage /></QueryClientProvider>]. *)
Definition App (args : list Value) : M Element :=
  queryClient ← binding QueryClientTs.file "queryClient";
  mret (jsx CQueryClientProvider {["client" := queryClient]}
          [jsx CHomePage ∅ []]).

(** The module body: the imports in source order (the query library is
    linked ahead of the application), then [export default App]. *)
Definition body : M (gmap string Value) :=
  _ ← import_from QueryClientTs.file QueryClientTs.body;
  _ ← import_from PagesIndexTs.file PagesIndexTs.body;
  mret {["default" := VFun CApp]}.

End AppTsx.

(** ** The running program *)

Module Program.

Inductive SourceFile := LibQueryClient | PagesIndex | AppRoot.

Definition path (f : SourceFile) : string :=
  match f with
  | LibQueryClient => QueryClientTs.file
  | PagesIndex => PagesIndexTs.file
  | AppRoot => AppTsx.file
  end.

Definition body (f : SourceFile) : M (gmap string Value) :=
  match f with
  | LibQueryClient => QueryClientTs.body
  | PagesIndex => PagesIndexTs.body
  | AppRoot => AppTsx.body
  end.

(** No prior state: nothing allocated, no module evaluated. *)
Definition init : State := mkState [] ∅.

(** Modelled from the spec: the entry point main.tsx is not in src/.  It
    imports App.tsx and hands its default export to the renderer, which
    calls it at every render; the export cannot be named before App.tsx is
    evaluated. *)
Definition render_root (args : list Value) : M Element :=
  app ← binding AppTsx.file "default";
  match app with
  | VFun CApp => AppTsx.App args
  | _ => throw TypeError
  end.

(** The operations of the program: some module imports a source file, or
    the renderer renders the root. *)
Inductive Op :=
| OpImport (f : SourceFile)
| OpRender (args : list Value).

Definition run_op (o : Op) : M (option Element) :=
  match o with
  | OpImport f => _ ← import_from (path f) (body f); mret None
  | OpRender args => e ← render_root args; mret (Some e)
  end.

Definition step (s : State) (o : Op) : State := (run_op o s).2.

Definition run (ops : list Op) (s : State) : State := foldl step s ops.

(** Modelled from the spec: startup, where the entry point main.tsx (not
    in src/) imports App.tsx from the empty store. *)
Definition startup : State := step init (OpImport AppRoot).

Definition after (ops : list Op) : State := run ops startup.

(** The stores the program can be in, whatever the order of its
    operations (see [run_init_reachable]). *)
Definition reachable_states : list State :=
  [ init;
    step init (OpImport PagesIndex);
    step init (OpImport LibQueryClient);
    step (step init (OpImport LibQueryClient)) (OpImport PagesIndex);
    startup ].

End Program.

(** ** Observations *)

Module Observe.

(** The object a value refers to. *)
Definition deref (s : State) (v : Value) : option Obj :=
  match v with
  | VRef l => heap s !! l
  | _ => None
  end.

(** An own property of the object a value refers to. *)
Definition own (s : State) (v : Value) (k : string) : option Value :=
  o ← deref s v; props o !! k.

(** The exported singleton, once the module is evaluated. *)
Definition exported_queryClient (s : State) : option Value :=
  ns ← modules s !! QueryClientTs.file; ns !! "queryClient".

(** [client.getDefaultOptions().queries.name] *)
Definition inspect (client : Value) (name : string) : M Value :=
  d ← ReactQuery.getDefaultOptions client;
  q ← get_prop d "queries";
  get_prop q name.

(** Inspection reports the three options of the policy. *)
Definition reports_policy (client : Value) (s : State) : Prop :=
  inspect client "refetchOnWindowFocus" s = (Normal (VBool false), s)
  ∧ inspect client "retry" s = (Normal (VNum 1), s)
  ∧ inspect client "staleTime" s = (Normal (VNum 300000), s).

(** The query defaults of a client, as a whole object. *)
Definition query_defaults (s : State) (client : Value)
  : option (gmap string Value) :=
  d ← own s client "defaultOptions";
  q ← own s d "queries";
  props <$> deref s q.

(** How many objects of a class the heap holds. *)
Definition count_class (c : Class) (s : State) : nat :=
  length (filter (λ o, class o = c) (heap s)).

(** The configuration as the program sees it: the exported client and the
    query defaults it holds. *)
Definition observed_config (s : State) : option (Value * gmap string Value) :=
  client ← exported_queryClient s;
  q ← query_defaults s client;
  Some (client, q).

(** The objects a client is made of: itself, its two caches, its default
    options and the query defaults below them. *)
Definition owned (s : State) (client : Value) : list Value :=
  client
    :: option_list (own s client "queryCache")
    ++ option_list (own s client "mutationCache")
    ++ match own s client "defaultOptions" with
       | Some d => d :: option_list (own s d "queries")
       | None => []
       end.

(** What a client holds besides identity: the cache objects, the default
    options object and the mount count. *)
Definition client_view (s : State) (client : Value)
  : option (Obj * Obj * gmap string Value * Value) :=
  qc ← own s client "queryCache" ≫= deref s;
  mc ← own s client "mutationCache" ≫= deref s;
  d ← own s client "defaultOptions" ≫= deref s;
  n ← own s client "mountCount";
  Some (qc, mc, props d, n).

End Observe.

(** ** Element trees and provider scopes *)

Module Tree.

Definition type (e : Element) : Component :=
  match e with jsx t _ _ => t end.

Definition children (e : Element) : list Element :=
  match e with jsx _ _ cs => cs end.

(** Every node of a tree, the root first. *)
Fixpoint nodes (e : Element) : list Element :=
  match e with
  | jsx _ _ cs => e :: concat (map nodes cs)
  end.

(** The nodes strictly below the root. *)
Definition descendants (e : Element) : list Element :=
  concat (map nodes (children e)).

Definition count_type (c : Component) (e : Element) : nat :=
  length (filter (λ x, type x = c) (nodes e)).

(** The client in scope at every node: a provider puts its [client] prop in
    scope for the nodes below it; the nearest enclosing provider wins, and
    outside every provider no client is in scope. *)
Fixpoint scoped (ctx : option Value) (e : Element)
  : list (Component * option Value) :=
  match e with
  | jsx t ps cs =>
      let inner :=
        if decide (t = CQueryClientProvider)
        then Some (default VUndefined (ps !! "client"))
        else ctx in
      (t, ctx) :: concat (map (scoped inner) cs)
  end.

(** The nodes below the root, each with the client in scope there. *)
Definition scoped_below (e : Element) : list (Component * option Value) :=
  tail (scoped None e).

End Tree.

(** ** Expected values *)

Module Expected.

(** The policy of section 3 of the specification. *)
Definition query_policy : gmap string Value :=
  <["refetchOnWindowFocus" := VBool false]>
    (<["retry" := VNum 1]> {["staleTime" := VNum 300000]}).

(** The objects one evaluation of the initialiser adds to a heap that holds
    [n] objects already. *)
Definition constructed (n : nat) : list Obj :=
  [ mkObj Object query_policy;
    mkObj Object {["queries" := VRef n]};
    mkObj Object {["defaultOptions" := VRef (1 + n)]};
    mkObj QueryCache ∅;
    mkObj MutationCache ∅;
    mkObj QueryClient
      (<["queryCache" := VRef (3 + n)]>
       (<["mutationCache" := VRef (4 + n)]>
        (<["defaultOptions" := VRef (1 + n)]>
         {["mountCount" := VNum 0]}))) ].

(** The objects [new QueryClient()] adds, with no configuration at all. *)
Definition constructed_default (n : nat) : list Obj :=
  [ mkObj Object ∅;
    mkObj QueryCache ∅;
    mkObj MutationCache ∅;
    mkObj Object ∅;
    mkObj QueryClient
      (<["queryCache" := VRef (1 + n)]>
       (<["mutationCache" := VRef (2 + n)]>
        (<["defaultOptions" := VRef (3 + n)]>
         {["mountCount" := VNum 0]}))) ].

(** The tree [App] returns for a given client. *)
Definition root_tree (client : Value) : Element :=
  jsx CQueryClientProvider {["client" := client]} [jsx CHomePage ∅ []].

End Expected.

(** ** A harness that evaluates the initialiser twice *)

Module Harness.

Definition construct_twice : M (Value * Value) :=
  a ← QueryClientTs.construct;
  b ← QueryClientTs.construct;
  mret (a, b).

(** [new QueryClient()] *)
Definition construct_default : M Value :=
  ReactQuery.new_QueryClient VUndefined.

End Harness.

(** * Lemmas *)

Import Program Observe Tree Expected Harness.

(** ** Running computations step by step *)

Section Stepping.
Context {A B : Type}.

Lemma bind_normal (m : M A) (k : A → M B) s a s' :
  m s = (Normal a, s') → (m ≫= k) s = k a s'.
Proof. intros E. unfold mbind, M_bind, bind. by rewrite E. Qed.

Lemma bind_throw (m : M A) (k : A → M B) s e s' :
  m s = (Throw e, s') → (m ≫= k) s = (Throw e, s').
Proof. intros E. unfold mbind, M_bind, bind. by rewrite E. Qed.

End Stepping.

(** ** Objects allocated on top of an arbitrary heap *)

Section Blocks.
Variables (pre blk rest : list Obj) (m : gmap string (gmap string Value)).

Lemma lookup_block i :
  i < length blk → (pre ++ blk ++ rest) !! (i + length pre) = blk !! i.
Proof.
  intros Hi. rewrite lookup_app_r by lia.
  replace (i + length pre - length pre) with i by lia.
  by rewrite lookup_app_l.
Qed.

Lemma deref_block i :
  i < length blk →
  deref (mkState (pre ++ blk ++ rest) m) (VRef (i + length pre)) = blk !! i.
Proof. apply lookup_block. Qed.

Lemma own_block i k :
  i < length blk →
  own (mkState (pre ++ blk ++ rest) m) (VRef (i + length pre)) k
  = blk !! i ≫= λ o, props o !! k.
Proof. intros Hi. unfold own. by rewrite deref_block. Qed.

Lemma get_prop_block i o k :
  blk !! i = Some o →
  get_prop (VRef (i + length pre)) k (mkState (pre ++ blk ++ rest) m)
  = (Normal (default VUndefined (props o !! k)),
     mkState (pre ++ blk ++ rest) m).
Proof.
  intros E. unfold get_prop. simpl heap.
  rewrite lookup_block by (by eapply lookup_lt_Some). by rewrite E.
Qed.

Lemma deref_at i o :
  blk !! i = Some o →
  deref (mkState (pre ++ blk ++ rest) m) (VRef (i + length pre)) = Some o.
Proof.
  intros E. rewrite deref_block; [done | by eapply lookup_lt_Some].
Qed.

Lemma own_at i k o v :
  blk !! i = Some o → props o !! k = v →
  own (mkState (pre ++ blk ++ rest) m) (VRef (i + length pre)) k = v.
Proof. intros E <-. unfold own. by rewrite (deref_at _ _ E). Qed.

Lemma get_prop_at i k o v :
  blk !! i = Some o → default VUndefined (props o !! k) = v →
  get_prop (VRef (i + length pre)) k (mkState (pre ++ blk ++ rest) m)
  = (Normal v, mkState (pre ++ blk ++ rest) m).
Proof. intros E <-. by apply get_prop_block. Qed.

End Blocks.

Lemma alloc_ext o h l m :
  alloc o (mkState (h ++ l) m)
  = (Normal (VRef (length l + length h)), mkState (h ++ (l ++ [o])) m).
Proof.
  unfold alloc. simpl. rewrite length_app, (assoc_L (++)). do 3 f_equal. lia.
Qed.

Lemma get_prop_ext i o k h l m :
  l !! i = Some o →
  get_prop (VRef (i + length h)) k (mkState (h ++ l) m)
  = (Normal (default VUndefined (props o !! k)), mkState (h ++ l) m).
Proof.
  intros E. rewrite <- (app_nil_r l). by apply get_prop_block.
Qed.

(** ** The initialiser, in any store *)

Lemma construct_spec s :
  QueryClientTs.construct s
  = (Normal (VRef (5 + length (heap s))),
     mkState (heap s ++ constructed (length (heap s))) (modules s)).
Proof.
  destruct s as [h m]. simpl heap. simpl modules.
  rewrite <- (app_nil_r h) at 1.
  unfold QueryClientTs.construct, ReactQuery.new_QueryClient, object_literal.
  do 3 (erewrite bind_normal by apply alloc_ext).
  rewrite decide_False by done.
  erewrite bind_normal by reflexivity.
  erewrite bind_normal by (by apply (get_prop_ext 2)).
  erewrite bind_normal by apply alloc_ext.
  erewrite bind_normal by (by apply (get_prop_ext 2)).
  erewrite bind_normal by apply alloc_ext.
  erewrite bind_normal by (by apply (get_prop_ext 2)).
  erewrite bind_normal by reflexivity.
  rewrite alloc_ext. reflexivity.
Qed.

Lemma construct_default_spec s :
  construct_default s
  = (Normal (VRef (4 + length (heap s))),
     mkState (heap s ++ constructed_default (length (heap s))) (modules s)).
Proof.
  destruct s as [h m]. simpl heap. simpl modules.
  rewrite <- (app_nil_r h) at 1.
  unfold construct_default, ReactQuery.new_QueryClient, object_literal.
  rewrite decide_True by done.
  erewrite bind_normal by apply alloc_ext.
  erewrite bind_normal by (by apply (get_prop_ext 0)).
  erewrite bind_normal by apply alloc_ext.
  erewrite bind_normal by (by apply (get_prop_ext 0)).
  erewrite bind_normal by apply alloc_ext.
  erewrite bind_normal by (by apply (get_prop_ext 0)).
  erewrite bind_normal by apply alloc_ext.
  rewrite alloc_ext. reflexivity.
Qed.

Lemma construct_twice_spec s :
  let n := length (heap s) in
  construct_twice s
  = (Normal (VRef (5 + n), VRef (5 + (6 + n))),
     mkState (heap s ++ constructed n ++ constructed (6 + n)) (modules s)).
Proof.
  intros n. unfold construct_twice.
  erewrite bind_normal by apply construct_spec.
  erewrite bind_normal by apply construct_spec.
  simpl heap. simpl modules.
  replace (length (heap s ++ constructed (length (heap s)))) with (6 + n)
    by (rewrite length_app; simpl; lia).
  by rewrite <- (assoc_L (++)).
Qed.

(** The objects of one evaluation of the initialiser, wherever they sit. *)
Section Constructed.
Variables (pre rest : list Obj) (m : gmap string (gmap string Value)).
Local Abbreviation n := (length pre).
Local Abbreviation s := (mkState (pre ++ constructed n ++ rest) m).
Local Abbreviation client := (VRef (5 + n)).

Local Abbreviation deref_constructed := (deref_at pre (constructed n) rest m).
Local Abbreviation own_constructed := (own_at pre (constructed n) rest m).
Local Abbreviation get_prop_constructed :=
  (get_prop_at pre (constructed n) rest m).

Lemma inspect_block name :
  inspect client name s
  = (Normal (default VUndefined (query_policy !! name)), s).
Proof.
  unfold inspect, ReactQuery.getDefaultOptions.
  erewrite bind_normal
    by (by eapply (get_prop_constructed 5 _ _ (VRef (1 + n)))).
  erewrite bind_normal
    by (by eapply (get_prop_constructed 1 _ _ (VRef (0 + n)))).
  by eapply (get_prop_constructed 0 _ (mkObj Object query_policy)).
Qed.

Lemma query_defaults_block : query_defaults s client = Some query_policy.
Proof.
  unfold query_defaults.
  rewrite (own_constructed 5 _ _ (Some (VRef (1 + n)))) by done.
  cbn [mbind option_bind].
  rewrite (own_constructed 1 _ _ (Some (VRef (0 + n)))) by done.
  cbn [mbind option_bind].
  by rewrite (deref_constructed 0 (mkObj Object query_policy)).
Qed.

Lemma owned_block :
  owned s client
  = [VRef (5 + n); VRef (3 + n); VRef (4 + n); VRef (1 + n); VRef n].
Proof.
  unfold owned.
  rewrite (own_constructed 5 "queryCache" _ (Some (VRef (3 + n)))) by done.
  rewrite (own_constructed 5 "mutationCache" _ (Some (VRef (4 + n)))) by done.
  rewrite (own_constructed 5 "defaultOptions" _ (Some (VRef (1 + n)))) by done.
  by rewrite (own_constructed 1 "queries" _ (Some (VRef (0 + n)))) by done.
Qed.

Lemma client_view_block :
  client_view s client
  = Some (mkObj QueryCache ∅, mkObj MutationCache ∅,
          {["queries" := VRef n]}, VNum 0).
Proof.
  unfold client_view.
  rewrite (own_constructed 5 "queryCache" _ (Some (VRef (3 + n)))) by done.
  rewrite (own_constructed 5 "mutationCache" _ (Some (VRef (4 + n)))) by done.
  rewrite (own_constructed 5 "defaultOptions" _ (Some (VRef (1 + n)))) by done.
  rewrite (own_constructed 5 "mountCount" _ (Some (VNum 0))) by done.
  cbn [mbind option_bind].
  rewrite (deref_constructed 3 (mkObj QueryCache ∅)) by done.
  rewrite (deref_constructed 4 (mkObj MutationCache ∅)) by done.
  by rewrite (deref_constructed 1 (mkObj Object {["queries" := VRef n]})) by done.
Qed.

End Constructed.

Lemma client_view_default pre m :
  client_view (mkState (pre ++ constructed_default (length pre) ++ []) m)
    (VRef (4 + length pre))
  = Some (mkObj QueryCache ∅, mkObj MutationCache ∅, ∅, VNum 0).
Proof.
  unfold client_view.
  rewrite (own_at _ _ _ _ 4 "queryCache" _ (Some (VRef (1 + length pre))))
    by done.
  rewrite (own_at _ _ _ _ 4 "mutationCache" _ (Some (VRef (2 + length pre))))
    by done.
  rewrite (own_at _ _ _ _ 4 "defaultOptions" _ (Some (VRef (3 + length pre))))
    by done.
  rewrite (own_at _ _ _ _ 4 "mountCount" _ (Some (VNum 0))) by done.
  cbn [mbind option_bind].
  rewrite (deref_at _ _ _ _ 1 (mkObj QueryCache ∅)) by done.
  rewrite (deref_at _ _ _ _ 2 (mkObj MutationCache ∅)) by done.
  by rewrite (deref_at _ _ _ _ 3 (mkObj Object ∅)) by done.
Qed.

Lemma owned_allocated pre rest m v :
  let s := mkState (pre ++ constructed (length pre) ++ rest) m in
  v ∈ owned s (VRef (5 + length pre)) →
  ∃ l o, v = VRef l ∧ heap s !! l = Some o.
Proof.
  intros s. unfold s. rewrite owned_block, !elem_of_cons, elem_of_nil.
  cbn [heap].
  intros [->|[->|[->|[->|[->|[]]]]]]; eexists _, _; (split; [reflexivity|]).
  - by rewrite (lookup_block _ _ _ 5) by (simpl; lia).
  - by rewrite (lookup_block _ _ _ 3) by (simpl; lia).
  - by rewrite (lookup_block _ _ _ 4) by (simpl; lia).
  - by rewrite (lookup_block _ _ _ 1) by (simpl; lia).
  - etrans; [|reflexivity].
    apply (lookup_block pre (constructed (length pre)) rest 0). simpl; lia.
Qed.

(** ** Writes and the objects a client is made of *)

Lemma set_prop_allocated s l o k x :
  heap s !! l = Some o →
  ∃ s', set_prop (VRef l) k x s = (Normal (), s')
        ∧ ∀ v, v ≠ VRef l → deref s' v = deref s v.
Proof.
  intros E. unfold set_prop. rewrite E. eexists. split; [done|].
  intros [| | | |l'] Hv; simpl; try done.
  rewrite list_lookup_insert_ne; [done | congruence].
Qed.

Lemma query_defaults_frame s1 s2 client :
  (∀ v, v ∈ owned s1 client → deref s2 v = deref s1 v) →
  query_defaults s2 client = query_defaults s1 client.
Proof.
  intros H. unfold query_defaults, own.
  assert (Hc : deref s2 client = deref s1 client)
    by (apply H; unfold owned; apply list_elem_of_here).
  rewrite Hc. destruct (deref s1 client) as [o|] eqn:Eo; simpl; [|done].
  destruct (props o !! "defaultOptions") as [d|] eqn:Ed; simpl; [|done].
  assert (Hown : own s1 client "defaultOptions" = Some d)
    by (unfold own; rewrite Eo; done).
  assert (Hd : deref s2 d = deref s1 d).
  { apply H. unfold owned. rewrite Hown.
    apply list_elem_of_further. rewrite !elem_of_app. right. right.
    apply list_elem_of_here. }
  rewrite Hd. destruct (deref s1 d) as [od|] eqn:Eod; simpl; [|done].
  destruct (props od !! "queries") as [q|] eqn:Eq; simpl; [|done].
  f_equal. apply H. unfold owned. rewrite Hown.
  apply list_elem_of_further. rewrite !elem_of_app. right. right.
  apply list_elem_of_further. unfold own. rewrite Eod. simpl. rewrite Eq.
  apply list_elem_of_here.
Qed.

(** ** Two evaluations of the initialiser *)

Section Twice.
Variables (h : list Obj) (m : gmap string (gmap string Value)).
Local Abbreviation n := (length h).
Local Abbreviation s2 :=
  (mkState (h ++ constructed n ++ constructed (6 + n)) m).

Lemma twice_second_block :
  s2 = mkState ((h ++ constructed n)
                  ++ constructed (length (h ++ constructed n)) ++ []) m
  ∧ 6 + n = length (h ++ constructed n).
Proof.
  assert (E : length (h ++ constructed n) = 6 + n)
    by (rewrite length_app; simpl; lia).
  rewrite E, app_nil_r, <- (assoc_L (++)). done.
Qed.

Lemma twice_query_defaults :
  query_defaults s2 (VRef (5 + n)) = Some query_policy
  ∧ query_defaults s2 (VRef (5 + (6 + n))) = Some query_policy.
Proof.
  split; [apply query_defaults_block|].
  destruct twice_second_block as [-> E]. rewrite E at 1.
  apply query_defaults_block.
Qed.

Lemma twice_owned :
  owned s2 (VRef (5 + n))
  = [VRef (5 + n); VRef (3 + n); VRef (4 + n); VRef (1 + n); VRef n]
  ∧ owned s2 (VRef (5 + (6 + n)))
    = [VRef (5 + (6 + n)); VRef (3 + (6 + n)); VRef (4 + (6 + n));
       VRef (1 + (6 + n)); VRef (6 + n)].
Proof.
  split; [apply owned_block|].
  destruct twice_second_block as [-> E]. rewrite !E.
  apply owned_block.
Qed.

Lemma twice_allocated v :
  v ∈ owned s2 (VRef (5 + n)) ∨ v ∈ owned s2 (VRef (5 + (6 + n))) →
  ∃ l o, v = VRef l ∧ heap s2 !! l = Some o.
Proof.
  intros [Hv|Hv]; [by apply owned_allocated in Hv|].
  destruct twice_second_block as [E1 E2]. rewrite E1, E2 in Hv.
  apply owned_allocated in Hv. by rewrite E1.
Qed.

Lemma twice_disjoint v :
  v ∈ owned s2 (VRef (5 + n)) → v ∉ owned s2 (VRef (5 + (6 + n))).
Proof.
  destruct twice_owned as [-> ->].
  rewrite !elem_of_cons, !elem_of_nil.
  intros [->|[->|[->|[->|[->|[]]]]]] H;
    repeat (destruct H as [[=]|H]; [lia|]); done.
Qed.

End Twice.

(** ** The running program *)

Lemma run_fixed s : (∀ o, step s o = s) → ∀ ops, run ops s = s.
Proof.
  intros Hs ops. unfold run. induction ops as [|o ops IH]; simpl; [done|].
  by rewrite Hs.
Qed.

Lemma step_startup o : step startup o = startup.
Proof. destruct o as [[]|args]; compute_done. Qed.

Lemma after_stable ops : after ops = startup.
Proof. apply run_fixed, step_startup. Qed.

Lemma step_closed s o : s ∈ reachable_states → step s o ∈ reachable_states.
Proof.
  unfold reachable_states. intros Hs.
  rewrite !elem_of_cons, elem_of_nil in Hs.
  destruct Hs as [->|[->|[->|[->|[->|[]]]]]]; destruct o as [[]|args];
    compute_done.
Qed.

Lemma run_closed ops s :
  s ∈ reachable_states → run ops s ∈ reachable_states.
Proof.
  revert s. unfold run.
  induction ops as [|o ops IH]; intros s Hs; simpl; [done|].
  by apply IH, step_closed.
Qed.

Lemma run_init_reachable ops : run ops init ∈ reachable_states.
Proof. apply run_closed. unfold reachable_states. apply list_elem_of_here. Qed.

Lemma reachable_cases s :
  s ∈ reachable_states →
  modules s !! AppTsx.file = None ∨ s = startup.
Proof.
  unfold reachable_states. rewrite !elem_of_cons, elem_of_nil.
  intros [->|[->|[->|[->|[->|[]]]]]]; (by right) || (left; compute_done).
Qed.

Lemma render_not_ready s args :
  modules s !! AppTsx.file = None →
  render_root args s = (Throw ReferenceError, s).
Proof.
  intros E. unfold render_root.
  apply bind_throw. unfold binding. by rewrite E.
Qed.

Lemma render_startup args :
  render_root args startup = (Normal (root_tree (VRef 5)), startup).
Proof. compute_done. Qed.

Lemma exported_startup : exported_queryClient startup = Some (VRef 5).
Proof. compute_done. Qed.

Lemma heap_startup : heap startup = constructed 0.
Proof. compute_done. Qed.

Lemma startup_block :
  startup = mkState ([] ++ constructed (length (@nil Obj)) ++ []) (modules startup).
Proof. compute_done. Qed.

Lemma reports_startup : reports_policy (VRef 5) startup.
Proof.
  rewrite startup_block. unfold reports_policy.
  rewrite !(inspect_block [] [] (modules startup)). done.
Qed.

Lemma reports_constructed s :
  reports_policy (VRef (5 + length (heap s)))
    (mkState (heap s ++ constructed (length (heap s))) (modules s)).
Proof.
  rewrite <- (app_nil_r (constructed _)). unfold reports_policy.
  by rewrite !inspect_block.
Qed.

(** ** The model on concrete inputs *)

Example construct_in_empty_store :
  (QueryClientTs.construct init).1 = Normal (VRef 5).
Proof. compute_done. Qed.

Example startup_registry :
  modules startup
  = <[AppTsx.file := {["default" := VFun CApp]}]>
      (<[PagesIndexTs.file := {["HomePage" := VFun CHomePage]}]>
         {[QueryClientTs.file := {["queryClient" := VRef 5]}]}).
Proof. compute_done. Qed.

Example render_before_startup :
  (render_root [] init).1 = Throw ReferenceError.
Proof. compute_done. Qed.

Example App_before_its_import :
  (AppTsx.App [] init).1 = Throw ReferenceError.
Proof. compute_done. Qed.

Example stale_time_at_startup :
  (inspect (VRef 5) "staleTime" startup).1 = Normal (VNum 300000).
Proof. compute_done. Qed.

Example option_not_set_at_startup :
  (inspect (VRef 5) "gcTime" startup).1 = Normal VUndefined.
Proof. compute_done. Qed.

Example constructor_on_dangling_reference :
  (ReactQuery.new_QueryClient (VRef 7) init).1 = Throw TypeError.
Proof. compute_done. Qed.

Example import_twice_constructs_once :
  count_class QueryClient
    (run [OpImport LibQueryClient; OpImport LibQueryClient; OpImport AppRoot]
       init) = 1.
Proof. compute_done. Qed.

(** * The claims *)

(** C1: inspected after construction, the query client reports
    refetchOnWindowFocus = false, retry = 1 and staleTime = 300000
    milliseconds, that is five minutes.  This holds for the client the
    initialiser returns in any store, and for the exported singleton at
    every point of the running program. *)
Theorem C1_queryClient_reports_policy :
  (∀ s, ∃ client s',
      QueryClientTs.construct s = (Normal client, s')
      ∧ reports_policy client s')
  ∧ (∀ ops, ∃ client,
      exported_queryClient (after ops) = Some client
      ∧ reports_policy client (after ops))
  ∧ (300000 = 5 * 60 * 1000)%Z.
Proof.
  split_and!.
  - intros s. eexists _, _. split; [apply construct_spec|].
    apply reports_constructed.
  - intros ops. rewrite after_stable. exists (VRef 5).
    split; [apply exported_startup | apply reports_startup].
  - reflexivity.
Qed.

(** C2: the tree the root composition returns holds exactly one
    query-provider, at its root, and the page component is a descendant of
    that provider: it lies below it, in the scope of its client. *)
Theorem C2_one_provider_wraps_page ops args :
  ∃ client tree,
    render_root args (after ops) = (Normal tree, after ops)
    ∧ exported_queryClient (after ops) = Some client
    ∧ count_type CQueryClientProvider tree = 1
    ∧ type tree = CQueryClientProvider
    ∧ count_type CHomePage tree = 1
    ∧ jsx CHomePage ∅ [] ∈ descendants tree
    ∧ scoped None tree
      = [(CQueryClientProvider, None); (CHomePage, Some client)].
Proof.
  rewrite after_stable. exists (VRef 5), (root_tree (VRef 5)).
  split_and!; compute_done.
Qed.

(** C3: rendering the root composition with no prior state (startup from
    the empty store, then a render) does not throw and yields exactly one
    top-level page, the home page, below the provider; so does every later
    render.  [App] declares no parameter: whatever it is called with, it
    behaves as when called with nothing. *)
Theorem C3_render_root_one_page args :
  ∃ tree,
    render_root args (run [OpImport AppRoot] init)
    = (Normal tree, run [OpImport AppRoot] init)
    ∧ children tree = [jsx CHomePage ∅ []]
    ∧ (∀ ops, render_root args (after ops) = (Normal tree, after ops))
    ∧ (∀ s, AppTsx.App args s = AppTsx.App [] s).
Proof.
  exists (root_tree (VRef 5)). split_and!.
  - apply render_startup.
  - reflexivity.
  - intros ops. rewrite after_stable. apply render_startup.
  - reflexivity.
Qed.

(** C4: the configuration is constructed once, at startup, and no
    operation of the program changes it: after every operation, renders
    included, the configuration observed equals the one constructed at
    startup, and the heap holds one query client.  From the empty store
    on, no order of operations constructs a second client. *)
Theorem C4_config_constructed_once_never_mutated ops o :
  observed_config startup = Some (VRef 5, query_policy)
  ∧ observed_config (step (after ops) o) = observed_config startup
  ∧ heap (step (after ops) o) = heap startup
  ∧ count_class QueryClient init = 0
  ∧ count_class QueryClient startup = 1
  ∧ count_class QueryClient (step (after ops) o) = 1
  ∧ (∀ ops', count_class QueryClient (run ops' init) ≤ 1)
  ∧ (∀ ops', observed_config (run ops' init) = None
             ∨ observed_config (run ops' init) = observed_config startup).
Proof.
  rewrite after_stable, step_startup.
  split; [compute_done|].
  split; [reflexivity|].
  split; [reflexivity|].
  split; [compute_done|].
  split; [compute_done|].
  split; [compute_done|].
  split.
  - intros ops'. pose proof (run_init_reachable ops') as Hs.
    unfold reachable_states in Hs. rewrite !elem_of_cons, elem_of_nil in Hs.
    destruct Hs as [->|[->|[->|[->|[->|[]]]]]]; compute_done.
  - intros ops'. pose proof (run_init_reachable ops') as Hs.
    unfold reachable_states in Hs. rewrite !elem_of_cons, elem_of_nil in Hs.
    destruct Hs as [->|[->|[->|[->|[->|[]]]]]]; compute_done.
Qed.

(** C5: evaluating the initialiser twice, in any store, yields two
    distinct clients that share no object (a write to an object of one is
    not seen through the other) and whose query defaults are the same three
    values, whatever the store held before. *)
Theorem C5_two_constructions_independent s :
  ∃ a b s',
    construct_twice s = (Normal (a, b), s')
    ∧ a ≠ b
    ∧ (∀ v, v ∈ owned s' a → v ∉ owned s' b)
    ∧ query_defaults s' a = Some query_policy
    ∧ query_defaults s' b = Some query_policy
    ∧ reports_policy a s'
    ∧ reports_policy b s'
    ∧ (∀ target k x, target ∈ owned s' a →
         ∃ s'', set_prop target k x s' = (Normal (), s'')
                ∧ query_defaults s'' b = Some query_policy)
    ∧ (∀ target k x, target ∈ owned s' b →
         ∃ s'', set_prop target k x s' = (Normal (), s'')
                ∧ query_defaults s'' a = Some query_policy).
Proof.
  destruct s as [h m]. eexists _, _, _.
  split; [apply construct_twice_spec|]. cbn [heap modules].
  destruct (twice_query_defaults h m) as [Qa Qb].
  split_and!.
  - intros [=]. lia.
  - apply twice_disjoint.
  - exact Qa.
  - exact Qb.
  - unfold reports_policy. by rewrite !inspect_block.
  - destruct (twice_second_block h m) as [-> E]. rewrite E.
    unfold reports_policy. by rewrite !inspect_block.
  - intros target k x Ht.
    destruct (twice_allocated h m target (or_introl Ht)) as (l & o & -> & El).
    destruct (set_prop_allocated _ _ _ k x El) as (s'' & Es & Hframe).
    exists s''. split; [exact Es|]. rewrite <- Qb.
    apply query_defaults_frame. intros v Hv. apply Hframe.
    intros ->. by apply (twice_disjoint h m (VRef l)).
  - intros target k x Ht.
    destruct (twice_allocated h m target (or_intror Ht)) as (l & o & -> & El).
    destruct (set_prop_allocated _ _ _ k x El) as (s'' & Es & Hframe).
    exists s''. split; [exact Es|]. rewrite <- Qa.
    apply query_defaults_frame. intros v Hv. apply Hframe.
    intros ->. by apply (twice_disjoint h m (VRef l)).
Qed.

(** C6: whenever a render of the root takes place, from the empty store
    and after any operations in any order, the query client was
    constructed before the render began: the store the render starts from
    already exports the client, it is a query client that reports the
    whole policy, the render leaves the store as it was, and the client is
    the one in scope at every node below the root, so that a fetch issued
    there observes the initialised policy. *)
Theorem C6_constructed_before_render ops args tree s' :
  render_root args (run ops init) = (Normal tree, s') →
  ∃ client o,
    exported_queryClient (run ops init) = Some client
    ∧ deref (run ops init) client = Some o
    ∧ class o = QueryClient
    ∧ reports_policy client (run ops init)
    ∧ s' = run ops init
    ∧ scoped_below tree ≠ []
    ∧ Forall (λ node, node.2 = Some client) (scoped_below tree).
Proof.
  intros Hr.
  destruct (reachable_cases _ (run_init_reachable ops)) as [E|E].
  - by rewrite (render_not_ready _ _ E) in Hr.
  - rewrite E in *. rewrite render_startup in Hr.
    injection Hr as <- <-.
    exists (VRef 5),
      (mkObj QueryClient
         (<["queryCache" := VRef 3]>
          (<["mutationCache" := VRef 4]>
           (<["defaultOptions" := VRef 1]>
            {["mountCount" := VNum 0]})))).
    split_and!.
    + apply exported_startup.
    + compute_done.
    + reflexivity.
    + apply reports_startup.
    + reflexivity.
    + done.
    + repeat constructor.
Qed.

(** The hypothesis of C6 holds at the first render after startup. *)
Lemma C6_constructed_before_render_witness :
  render_root [] (run [OpImport AppRoot] init)
  = (Normal (root_tree (VRef 5)), startup)
  ∧ ∃ client o,
      exported_queryClient (run [OpImport AppRoot] init) = Some client
      ∧ deref (run [OpImport AppRoot] init) client = Some o
      ∧ class o = QueryClient
      ∧ reports_policy client (run [OpImport AppRoot] init)
      ∧ startup = run [OpImport AppRoot] init
      ∧ scoped_below (root_tree (VRef 5)) ≠ []
      ∧ Forall (λ node, node.2 = Some client)
          (scoped_below (root_tree (VRef 5))).
Proof.
  split.
  - compute_done.
  - apply (C6_constructed_before_render [OpImport AppRoot] []).
    compute_done.
Defined.

(** C7: constructing the query client never produces an error: in every
    store the initialiser, the module body and an import of the module
    complete normally. *)
Theorem C7_construction_never_throws s :
  (∃ client s', QueryClientTs.construct s = (Normal client, s'))
  ∧ (∃ ns s', QueryClientTs.body s = (Normal ns, s'))
  ∧ (∃ ns s',
       import_from QueryClientTs.file QueryClientTs.body s = (Normal ns, s')).
Proof.
  assert (Hb : ∃ ns s', QueryClientTs.body s = (Normal ns, s')).
  { eexists _, _. unfold QueryClientTs.body.
    erewrite bind_normal by apply construct_spec. reflexivity. }
  split_and!.
  - eexists _, _. apply construct_spec.
  - exact Hb.
  - unfold import_from.
    destruct (modules s !! QueryClientTs.file) as [ns|]; [by eexists _, _|].
    destruct Hb as (ns & s' & ->). by eexists _, _.
Qed.

(** C8: the root composition is deterministic.  [App] ignores its
    arguments and leaves the store alone, and any two renders, at any two
    points of the running program, return the same tree: the provider with
    the same client wrapping the same page. *)
Theorem C8_App_deterministic ops1 ops2 args1 args2 :
  ∃ client,
    exported_queryClient (after ops1) = Some client
    ∧ exported_queryClient (after ops2) = Some client
    ∧ render_root args1 (after ops1) = (Normal (root_tree client), after ops1)
    ∧ render_root args2 (after ops2) = (Normal (root_tree client), after ops2)
    ∧ AppTsx.App args1 (after ops1) = (Normal (root_tree client), after ops1)
    ∧ AppTsx.App args2 (after ops2) = (Normal (root_tree client), after ops2)
    ∧ (∀ s, AppTsx.App args1 s = AppTsx.App args2 s)
    ∧ (∀ s, (AppTsx.App args1 s).2 = s).
Proof.
  rewrite !after_stable. exists (VRef 5).
  do 6 (split; [compute_done|]).
  split; [intros s; reflexivity|].
  intros s. unfold AppTsx.App, mbind, M_bind, bind, binding.
    destruct (modules s !! QueryClientTs.file) as [ns|]; [|done].
    by destruct (ns !! "queryClient").
Qed.

(** C9: the client the root composition hands to the provider is the
    module-level singleton itself: the same location as the exported
    binding, which every later import of the module and every read of the
    binding answer without constructing anything, and which is in scope at
    every node below the provider.  The heap holds this one client. *)
Theorem C9_provider_client_is_singleton ops args :
  ∃ l ps cs ns o,
    exported_queryClient (after ops) = Some (VRef l)
    ∧ render_root args (after ops)
      = (Normal (jsx CQueryClientProvider ps cs), after ops)
    ∧ ps !! "client" = Some (VRef l)
    ∧ import_from QueryClientTs.file QueryClientTs.body (after ops)
      = (Normal ns, after ops)
    ∧ ns !! "queryClient" = Some (VRef l)
    ∧ binding QueryClientTs.file "queryClient" (after ops)
      = (Normal (VRef l), after ops)
    ∧ Forall (λ node, node.2 = Some (VRef l))
        (scoped_below (jsx CQueryClientProvider ps cs))
    ∧ heap (after ops) !! l = Some o
    ∧ class o = QueryClient
    ∧ count_class QueryClient (after ops) = 1.
Proof.
  rewrite after_stable.
  exists 5, {["client" := VRef 5]}, [jsx CHomePage ∅ []],
    {["queryClient" := VRef 5]}.
  exists (mkObj QueryClient
            (<["queryCache" := VRef 3]>
             (<["mutationCache" := VRef 4]>
              (<["defaultOptions" := VRef 1]>
               {["mountCount" := VNum 0]})))).
  split_and!; compute_done.
Qed.

(** C10: the construction sets default options under the [queries] key
    only.  The default options of the client hold that one key (no
    mutation defaults), and everything else the client holds is what the
    library gives a client constructed with no configuration: caches the
    library created, empty, and a mount count of zero. *)
Theorem C10_only_query_defaults_set s :
  ∃ client s' q dclient ds,
    QueryClientTs.construct s = (Normal client, s')
    ∧ client_view s' client
      = Some (mkObj QueryCache ∅, mkObj MutationCache ∅,
              {["queries" := q]}, VNum 0)
    ∧ deref s' q = Some (mkObj Object query_policy)
    ∧ dom query_policy
      = ({["refetchOnWindowFocus"; "retry"; "staleTime"]} : gset string)
    ∧ own s' client "defaultOptions" ≫= (λ d, own s' d "mutations") = None
    ∧ construct_default s = (Normal dclient, ds)
    ∧ client_view ds dclient
      = Some (mkObj QueryCache ∅, mkObj MutationCache ∅, ∅, VNum 0)
    ∧ client_view ds dclient
      = (λ '(qc, mc, d, n), (qc, mc, delete "queries" d, n))
          <$> client_view s' client.
Proof.
  destruct s as [h m]. eexists _, _, (VRef (0 + length h)), _, _.
  split; [apply construct_spec|]. cbn [heap modules].
  rewrite <- (app_nil_r (constructed _)).
  rewrite client_view_block.
  split_and!.
  - reflexivity.
  - by eapply (deref_at h (constructed (length h)) [] m 0).
  - unfold query_policy. rewrite !dom_insert_L, dom_singleton_L. set_solver.
  - rewrite (own_at _ _ _ _ 5 "defaultOptions" _ (Some (VRef (1 + length h))))
      by done.
    cbn [mbind option_bind].
    by eapply (own_at h (constructed (length h)) [] m 1).
  - apply construct_default_spec.
  - cbn [heap modules]. rewrite <- (app_nil_r (constructed_default _)).
    apply client_view_default.
  - cbn [heap modules]. rewrite <- (app_nil_r (constructed_default _)).
    rewrite client_view_default. reflexivity.
Qed.

(** * Further properties of the two modules *)

(** ** Imports, in any store *)

Lemma import_cached file body s ns :
  modules s !! file = Some ns → import_from file body s = (Normal ns, s).
Proof. intros E. unfold import_from. by rewrite E. Qed.

Lemma import_fresh file body s ns h' m' :
  modules s !! file = None → body s = (Normal ns, mkState h' m') →
  import_from file body s = (Normal ns, mkState h' (<[file := ns]> m')).
Proof. intros E Hb. unfold import_from. by rewrite E, Hb. Qed.

Lemma queryClient_body_spec s :
  QueryClientTs.body s
  = (Normal {["queryClient" := VRef (5 + length (heap s))]},
     mkState (heap s ++ constructed (length (heap s))) (modules s)).
Proof.
  unfold QueryClientTs.body.
  by erewrite bind_normal by apply construct_spec.
Qed.

Lemma count_class_constructed c h n m :
  count_class c (mkState (h ++ constructed n) m)
  = count_class c (mkState h m)
    + (if decide (c = QueryClient) then 1 else 0)
    + (if decide (c = QueryCache) then 1 else 0)
    + (if decide (c = MutationCache) then 1 else 0)
    + (if decide (c = Object) then 3 else 0).
Proof.
  unfold count_class. cbn [heap]. rewrite filter_app, length_app.
  assert (E : length (filter (λ o, class o = c) (constructed n))
              = (if decide (c = QueryClient) then 1 else 0)
                + (if decide (c = QueryCache) then 1 else 0)
                + (if decide (c = MutationCache) then 1 else 0)
                + (if decide (c = Object) then 3 else 0))
    by (destruct c; reflexivity).
  rewrite E. lia.
Qed.

Lemma App_body_spec s :
  let qc := {["queryClient" := VRef (5 + length (heap s))]} in
  let pg := {["HomePage" := VFun CHomePage]} in
  let h1 := match modules s !! QueryClientTs.file with
            | Some _ => heap s
            | None => heap s ++ constructed (length (heap s))
            end in
  let m1 := match modules s !! QueryClientTs.file with
            | Some _ => modules s
            | None => <[QueryClientTs.file := qc]> (modules s)
            end in
  let m2 := match m1 !! PagesIndexTs.file with
            | Some _ => m1
            | None => <[PagesIndexTs.file := pg]> m1
            end in
  AppTsx.body s = (Normal {["default" := VFun CApp]}, mkState h1 m2).
Proof.
  destruct s as [h m]. intros qc pg h1 m1 m2. cbn [heap modules] in *.
  unfold AppTsx.body.
  assert (H1 : import_from QueryClientTs.file QueryClientTs.body (mkState h m)
               = (Normal (default qc (m !! QueryClientTs.file)), mkState h1 m1)).
  { unfold h1, m1. destruct (m !! QueryClientTs.file) as [ns|] eqn:E.
    - by apply import_cached.
    - eapply import_fresh; [exact E | apply queryClient_body_spec]. }
  erewrite bind_normal by exact H1.
  assert (H2 : import_from PagesIndexTs.file PagesIndexTs.body (mkState h1 m1)
               = (Normal (default pg (m1 !! PagesIndexTs.file)), mkState h1 m2)).
  { unfold m2. destruct (m1 !! PagesIndexTs.file) as [ns|] eqn:E.
    - by apply import_cached.
    - by eapply import_fresh. }
  erewrite bind_normal by exact H2. reflexivity.
Qed.

Lemma import_App_spec s :
  let qc : gmap string Value :=
    {["queryClient" := VRef (5 + length (heap s))]} in
  let pg : gmap string Value := {["HomePage" := VFun CHomePage]} in
  let app : gmap string Value := {["default" := VFun CApp]} in
  let h1 := match modules s !! QueryClientTs.file with
            | Some _ => heap s
            | None => heap s ++ constructed (length (heap s))
            end in
  let m1 := match modules s !! QueryClientTs.file with
            | Some _ => modules s
            | None => <[QueryClientTs.file := qc]> (modules s)
            end in
  let m2 := match m1 !! PagesIndexTs.file with
            | Some _ => m1
            | None => <[PagesIndexTs.file := pg]> m1
            end in
  modules s !! AppTsx.file = None →
  import_from AppTsx.file AppTsx.body s
  = (Normal app, mkState h1 (<[AppTsx.file := app]> m2)).
Proof.
  intros qc pg app h1 m1 m2 E.
  pose proof (App_body_spec s) as Hb. cbv zeta in Hb.
  subst qc pg app h1 m1 m2. unfold import_from. by rewrite E, Hb.
Qed.

Lemma step_import_App s :
  s ∈ reachable_states → step s (OpImport AppRoot) = startup.
Proof.
  unfold reachable_states. intros Hs.
  rewrite !elem_of_cons, elem_of_nil in Hs.
  destruct Hs as [->|[->|[->|[->|[->|[]]]]]]; compute_done.
Qed.

Lemma insert_absent_preserves {V} (m : gmap string V) k v f e :
  m !! k = None → m !! f = Some e → <[k := v]> m !! f = Some e.
Proof. intros Hk Hf. rewrite lookup_insert_ne; [done | congruence]. Qed.

Lemma files_distinct :
  QueryClientTs.file ≠ PagesIndexTs.file
  ∧ QueryClientTs.file ≠ AppTsx.file
  ∧ PagesIndexTs.file ≠ AppTsx.file.
Proof. split_and!; discriminate. Qed.

Lemma insert_absent_None {V} (m : gmap string V) k v f :
  k ≠ f → m !! f = None → <[k := v]> m !! f = None.
Proof. intros Hk Hf. by rewrite lookup_insert_ne. Qed.

Lemma App_reads_export s args client :
  exported_queryClient s = Some client →
  AppTsx.App args s = (Normal (root_tree client), s).
Proof.
  unfold exported_queryClient, AppTsx.App. intros E.
  destruct (modules s !! QueryClientTs.file) as [ns|] eqn:Em; [|done].
  cbn [mbind option_bind] in E.
  erewrite bind_normal; [reflexivity|].
  unfold binding. by rewrite Em, E.
Qed.

Lemma count_class_heap c s h m :
  heap s = h → count_class c s = count_class c (mkState h m).
Proof. by intros <-. Qed.

(** ** The properties *)

(** X1: in any store, evaluating the initialiser of queryClient.ts only
    adds objects.  The client it returns is a new location, every object
    the heap held is still there, unchanged, the module registry is
    untouched, and exactly one query client is added. *)
Theorem X1_construct_only_adds s :
  ∃ l s',
    QueryClientTs.construct s = (Normal (VRef l), s')
    ∧ heap s !! l = None
    ∧ heap s `prefix_of` heap s'
    ∧ modules s' = modules s
    ∧ count_class QueryClient s' = count_class QueryClient s + 1.
Proof.
  destruct s as [h m]. eexists _, _.
  split; [apply construct_spec|]. cbn [heap modules]. split_and!.
  - apply lookup_ge_None. lia.
  - by apply prefix_app_r.
  - reflexivity.
  - rewrite count_class_constructed. simpl. lia.
Qed.



(** X3: [App] in any store.  When the export [queryClient] of
    lib/queryClient.ts is initialised, [App] returns the provider that
    holds exactly the exported value, around one [HomePage] that sees this
    value in scope; when it is not, [App] throws a ReferenceError.  Either
    way the store is left as it was. *)
Theorem X3_App_in_any_store s args :
  match exported_queryClient s with
  | Some client =>
      AppTsx.App args s = (Normal (root_tree client), s)
      ∧ scoped None (root_tree client)
        = [(CQueryClientProvider, None); (CHomePage, Some client)]
  | None => AppTsx.App args s = (Throw ReferenceError, s)
  end.
Proof.
  unfold exported_queryClient, AppTsx.App.
  destruct (modules s !! QueryClientTs.file) as [ns|] eqn:E;
    cbn [mbind option_bind].
  - destruct (ns !! "queryClient") as [client|] eqn:Ek.
    + split.
      * erewrite bind_normal; [reflexivity|].
        unfold binding. by rewrite E, Ek.
      * unfold root_tree. cbn [scoped]. rewrite decide_True by done.
        by rewrite lookup_singleton_eq.
    + apply bind_throw. unfold binding. by rewrite E, Ek.
  - apply bind_throw. unfold binding. by rewrite E.
Qed.

(** X4: importing App.tsx never throws, in any store.  It leaves every
    object of the heap and every registered module as they were, and it
    constructs at most one query client. *)
Theorem X4_import_App_never_throws s :
  ∃ ns s',
    import_from AppTsx.file AppTsx.body s = (Normal ns, s')
    ∧ heap s `prefix_of` heap s'
    ∧ (∀ f e, modules s !! f = Some e → modules s' !! f = Some e)
    ∧ count_class QueryClient s' ≤ count_class QueryClient s + 1.
Proof.
  destruct (modules s !! AppTsx.file) as [ns|] eqn:E.
  { exists ns, s. split; [by apply import_cached|]. split_and!; [done|done|lia]. }
  pose proof (import_App_spec s E) as H. cbv zeta in H.
  eexists _, _. split; [exact H|]. clear H. cbn [heap modules].
  destruct files_distinct as (Hqp & Hqa & Hpa).
  destruct (modules s !! QueryClientTs.file) as [qc|] eqn:E1.
  - split_and!.
    + done.
    + intros f e Hf.
      destruct (modules s !! PagesIndexTs.file) eqn:E2.
      * by apply insert_absent_preserves.
      * apply insert_absent_preserves;
          [by apply insert_absent_None | by apply insert_absent_preserves].
    + unfold count_class. cbn [heap]. lia.
  - split_and!.
    + by apply prefix_app_r.
    + intros f e Hf.
      set (m1 := <[QueryClientTs.file := _]> (modules s)).
      assert (H1 : m1 !! f = Some e) by (by apply insert_absent_preserves).
      assert (Ha : m1 !! AppTsx.file = None) by (by apply insert_absent_None).
      destruct (m1 !! PagesIndexTs.file) eqn:E2.
      * by apply insert_absent_preserves.
      * apply insert_absent_preserves;
          [by apply insert_absent_None | by apply insert_absent_preserves].
    + rewrite count_class_constructed.
      rewrite <- (count_class_heap QueryClient s (heap s) _ eq_refl).
      simpl. lia.
Qed.

(** X5: when neither App.tsx nor lib/queryClient.ts has been evaluated,
    whatever else the store holds, importing App.tsx constructs exactly one
    query client, at a new location, and exports it; the client reports
    the policy, and [App] then returns the provider that holds it. *)
Theorem X5_import_App_constructs_client s args :
  modules s !! AppTsx.file = None →
  modules s !! QueryClientTs.file = None →
  ∃ ns s' l,
    import_from AppTsx.file AppTsx.body s = (Normal ns, s')
    ∧ heap s !! l = None
    ∧ exported_queryClient s' = Some (VRef l)
    ∧ count_class QueryClient s' = count_class QueryClient s + 1
    ∧ reports_policy (VRef l) s'
    ∧ AppTsx.App args s' = (Normal (root_tree (VRef l)), s').
Proof.
  intros E E1.
  pose proof (import_App_spec s E) as H. cbv zeta in H. rewrite E1 in H.
  destruct files_distinct as (Hqp & Hqa & Hpa).
  set (qc := {["queryClient" := VRef (5 + length (heap s))]}) in *.
  set (m1 := <[QueryClientTs.file := qc]> (modules s)) in *.
  assert (Hq : ∀ m2, m2 = match m1 !! PagesIndexTs.file with
                          | Some _ => m1
                          | None => <[PagesIndexTs.file :=
                                       {["HomePage" := VFun CHomePage]}]> m1
                          end →
               <[AppTsx.file := {["default" := VFun CApp]}]> m2
                 !! QueryClientTs.file = Some qc).
  { intros m2 ->. rewrite lookup_insert_ne by done.
    destruct (m1 !! PagesIndexTs.file);
      [|rewrite lookup_insert_ne by done]; apply lookup_insert_eq. }
  assert (Hx : ∀ h m2, m2 !! QueryClientTs.file = Some qc →
               exported_queryClient (mkState h m2)
               = Some (VRef (5 + length (heap s)))).
  { intros h m2 Hm. unfold exported_queryClient. cbn [modules].
    rewrite Hm. cbn [mbind option_bind]. apply lookup_singleton_eq. }
  eexists _, _, (5 + length (heap s)). split; [exact H|]. split_and!.
  - apply lookup_ge_None. lia.
  - apply Hx, Hq. reflexivity.
  - rewrite count_class_constructed.
    rewrite <- (count_class_heap QueryClient s (heap s) _ eq_refl).
    simpl. lia.
  - apply (reports_constructed (mkState (heap s) _)).
  - apply App_reads_export, Hx, Hq. reflexivity.
Qed.

(** The hypotheses of X5 hold in the empty store. *)
Lemma X5_import_App_constructs_client_witness :
  (modules init !! AppTsx.file = None
   ∧ modules init !! QueryClientTs.file = None)
  ∧ ∃ ns s' l,
      import_from AppTsx.file AppTsx.body init = (Normal ns, s')
      ∧ heap init !! l = None
      ∧ exported_queryClient s' = Some (VRef l)
      ∧ count_class QueryClient s' = count_class QueryClient init + 1
      ∧ reports_policy (VRef l) s'
      ∧ AppTsx.App [] s' = (Normal (root_tree (VRef l)), s').
Proof.
  split.
  - split; reflexivity.
  - apply (X5_import_App_constructs_client init []); reflexivity.
Defined.

(** X6: when lib/queryClient.ts was evaluated before App.tsx, by whichever
    module imported it first, importing App.tsx constructs nothing: the
    heap is the same and the export [queryClient] is the one that was
    there. *)
Theorem X6_import_App_reuses_client s ns0 :
  modules s !! AppTsx.file = None →
  modules s !! QueryClientTs.file = Some ns0 →
  ∃ ns s',
    import_from AppTsx.file AppTsx.body s = (Normal ns, s')
    ∧ heap s' = heap s
    ∧ modules s' !! QueryClientTs.file = Some ns0
    ∧ exported_queryClient s' = exported_queryClient s.
Proof.
  intros E E1.
  pose proof (import_App_spec s E) as H. cbv zeta in H. rewrite E1 in H.
  destruct files_distinct as (Hqp & Hqa & Hpa).
  eexists _, _. split; [exact H|]. clear H. cbn [heap].
  assert (Hm : <[AppTsx.file := {["default" := VFun CApp]}]>
                 match modules s !! PagesIndexTs.file with
                 | Some _ => modules s
                 | None => <[PagesIndexTs.file :=
                              {["HomePage" := VFun CHomePage]}]> (modules s)
                 end !! QueryClientTs.file = Some ns0).
  { rewrite lookup_insert_ne by done.
    destruct (modules s !! PagesIndexTs.file);
      [|rewrite lookup_insert_ne by done]; exact E1. }
  split_and!; [done | exact Hm |].
  unfold exported_queryClient. cbn [modules]. by rewrite Hm, E1.
Qed.

(** The hypotheses of X6 hold once lib/queryClient.ts alone is imported. *)
Lemma X6_import_App_reuses_client_witness :
  (modules (step init (OpImport LibQueryClient)) !! AppTsx.file = None
   ∧ modules (step init (OpImport LibQueryClient)) !! QueryClientTs.file
     = Some {["queryClient" := VRef 5]})
  ∧ ∃ ns s',
      import_from AppTsx.file AppTsx.body (step init (OpImport LibQueryClient))
      = (Normal ns, s')
      ∧ heap s' = heap (step init (OpImport LibQueryClient))
      ∧ modules s' !! QueryClientTs.file = Some {["queryClient" := VRef 5]}
      ∧ exported_queryClient s'
        = exported_queryClient (step init (OpImport LibQueryClient)).
Proof.
  split.
  - split; compute_done.
  - apply (X6_import_App_reuses_client (step init (OpImport LibQueryClient))
             {["queryClient" := VRef 5]}); compute_done.
Defined.

(** X7: startup does not depend on the order of operations.  Whatever
    imports and render attempts come before the import of App.tsx, and
    whatever operations come after it, the program is left in the startup
    store, where [App] returns the provider around the home page. *)
Theorem X7_startup_order_independent before rest args :
  run (before ++ OpImport AppRoot :: rest) init = startup
  ∧ AppTsx.App args (run (before ++ OpImport AppRoot :: rest) init)
    = (Normal (root_tree (VRef 5)), startup).
Proof.
  assert (E : run (before ++ OpImport AppRoot :: rest) init = startup).
  { unfold run. rewrite foldl_app. cbn [foldl].
    change (foldl step init before) with (run before init).
    rewrite (step_import_App _ (run_init_reachable before)).
    apply (after_stable rest). }
  rewrite E. split; [done|].
  apply App_reads_export, exported_startup.
Qed.
